(** * Two small Node.js servers: static assets and form persistence

  Shallow embedding of [Full Stack---1/index.js] (module [StaticServer])
  and of [Full stack--2/index.js] (module [FormService]).

  Node's own library functions ([path.resolve], [path.extname],
  [String.prototype.startsWith], [JSON.parse], the [fs] calls) are
  modelled by their POSIX behaviour; the handlers are transcribed from
  the two source files. *)

From stdpp Require Import gmap strings list.
From Stdlib Require Import Ascii ZArith Lia.

Set Warnings "-register-all".

(** ** Strings as JavaScript uses them *)

Module JsString.

(** [s.split('/')] *)
Fixpoint split_slash (s : string) : list string :=
  match s with
  | EmptyString => [""]
  | String c r =>
      if Ascii.eqb c "/"%char then "" :: split_slash r
      else match split_slash r with
           | h :: t => String c h :: t
           | [] => [String c ""]
           end
  end.

(** [segs.join('/')] *)
Fixpoint join_slash (segs : list string) : string :=
  match segs with
  | [] => ""
  | [s] => s
  | s :: r => s +:+ "/" +:+ join_slash r
  end.

(** [s.startsWith(p)] *)
Definition startsWith (s p : string) : bool := String.prefix p s.

(** Index of the last ['.'] of [s], counted from the left. *)
Fixpoint lastIndexOf_dot (s : string) : option nat :=
  match s with
  | EmptyString => None
  | String c r =>
      match lastIndexOf_dot r with
      | Some i => Some (S i)
      | None => if Ascii.eqb c "."%char then Some 0 else None
      end
  end.

(** [s.slice(i)] *)
Fixpoint slice_from (i : nat) (s : string) : string :=
  match i, s with
  | 0, _ => s
  | S i', String _ r => slice_from i' r
  | S _, EmptyString => ""
  end.

End JsString.

(** ** POSIX [path] functions *)

Module Path.
Import JsString.

(** [normalizeString] of Node's [path] module, on the segments of the
    path: empty segments and ["."] vanish, [".."] removes the segment
    before it; above the root it is dropped unless [allowAboveRoot].
    [acc] is the result so far, last segment first. *)
Fixpoint normalizeSegments (allowAboveRoot : bool) (acc segs : list string)
  : list string :=
  match segs with
  | [] => rev acc
  | s :: rest =>
      if String.eqb s "" || String.eqb s "." then
        normalizeSegments allowAboveRoot acc rest
      else if String.eqb s ".." then
        match acc with
        | top :: acc' =>
            if String.eqb top ".." then
              normalizeSegments allowAboveRoot (".." :: acc) rest
            else normalizeSegments allowAboveRoot acc' rest
        | [] =>
            if allowAboveRoot then
              normalizeSegments allowAboveRoot [".."] rest
            else normalizeSegments allowAboveRoot [] rest
        end
      else normalizeSegments allowAboveRoot (s :: acc) rest
  end.

Definition normalizeString (path : string) (allowAboveRoot : bool) : string :=
  join_slash (normalizeSegments allowAboveRoot [] (split_slash path)).

Definition isAbsolute (p : string) : bool :=
  match p with
  | String c _ => Ascii.eqb c "/"%char
  | EmptyString => false
  end.

(** The loop of [resolve]: arguments are taken from the last to the
    first until an absolute one is met, then the working directory. *)
Fixpoint resolve_loop (cwd : string) (args_rev : list string)
    (resolvedPath : string) : string * bool :=
  match args_rev with
  | [] =>
      if String.eqb cwd "" then (resolvedPath, false)
      else (cwd +:+ "/" +:+ resolvedPath, isAbsolute cwd)
  | p :: rest =>
      if String.eqb p "" then resolve_loop cwd rest resolvedPath
      else
        let resolvedPath' := p +:+ "/" +:+ resolvedPath in
        if isAbsolute p then (resolvedPath', true)
        else resolve_loop cwd rest resolvedPath'
  end.

(** [path.resolve(...args)] *)
Definition resolve (cwd : string) (args : list string) : string :=
  let '(resolvedPath, resolvedAbsolute) := resolve_loop cwd (rev args) "" in
  let normalized := normalizeString resolvedPath (negb resolvedAbsolute) in
  if resolvedAbsolute then "/" +:+ normalized
  else if String.eqb normalized "" then "." else normalized.

(** [path.basename] of a normalized path: its last segment. *)
Definition last_segment (p : string) : string :=
  List.last (split_slash p) "".

(** [path.extname(p)]: from the last ['.'] of the last segment to its
    end; empty when there is no dot, when the only dot starts the
    segment, and for the segment [".."]. *)
Definition extname (p : string) : string :=
  let base := last_segment p in
  if String.eqb base ".." then ""
  else match lastIndexOf_dot base with
       | None => ""
       | Some 0 => ""
       | Some i => slice_from i base
       end.

End Path.

(** ** The static asset server ([Full Stack---1/index.js]) *)

Module StaticServer.
Import JsString Path.

(** What the handler can see of [req]. *)
Record request := Request {
  method : string;
  url : string;
  headers : list (string * string)
}.

(** [res.writeHead(status, headers); res.end(body)] *)
Record response := Response {
  status : Z;
  resp_headers : list (string * string);
  resp_body : string
}.

(** The file system as [readFile] sees it: [None] is the [err] case
    of the callback, whatever its cause. *)
Definition filesystem := string -> option string.

Definition PORT : Z := 3001.

(** The keys and values of the [mimeTypes] object literal. *)
Definition mime_table : list (string * string) :=
  [ (".html", "text/html");
    (".css", "text/css");
    (".js", "application/javascript");
    (".png", "image/png");
    (".jpg", "image/jpeg");
    (".gif", "image/gif");
    (".ico", "image/x-icon") ].

Definition mimeTypes : gmap string string := list_to_map mime_table.

(** [a || b] where [a] is a string or [undefined]. *)
Definition or_else (a : option string) (b : string) : string :=
  match a with
  | Some s => if bool_decide (s = "") then b else s
  | None => b
  end.

(** A path lies inside the root directory when it is the root or
    continues it after a separator. *)
Definition inside_root (root p : string) : bool :=
  bool_decide (p = root) || startsWith p (root +:+ "/").

Section Server.
(** [process.cwd()] and [__dirname]: where the process runs and where
    [index.js] lies. *)
Variables (cwd dirname : string).

Definition PUBLIC_DIR : string := resolve cwd [dirname; "public"].

(** Lines 23-24: the path the request is mapped to. *)
Definition resolved_path (req : request) : string :=
  let filePath := if bool_decide (url req = "/") then "/index.html" else url req in
  resolve cwd [PUBLIC_DIR; "." +:+ filePath].

(** The request handler given to [createServer]. Its result is the
    response and the list of paths given to [readFile]. *)
Definition server (fs : filesystem) (req : request) : response * list string :=
  let filePath := resolved_path req in
  if negb (startsWith filePath PUBLIC_DIR) then
    (Response 403 [] "Forbidden", [])
  else
    match fs filePath with
    | None => (Response 404 [] "Not Found", [filePath])
    | Some data =>
        let ext := extname filePath in
        (Response 200
           [("Content-Type", or_else (mimeTypes !! ext) "application/octet-stream")]
           data,
         [filePath])
    end.

End Server.

End StaticServer.

(** ** JavaScript values that come from JSON *)

Module Js.

(** Numbers are kept as integers: the only number the service makes is
    [Date.now()], and of the others it tests only whether they are [0].
    The values are those that [JSON.stringify] and [JSON.parse] give
    back unchanged; a number beyond the range of doubles, which parses
    to [Infinity] and is written as [null], is not among them. *)
Inductive json :=
| JNull
| JBool (b : bool)
| JNum (n : Z)
| JStr (s : string)
| JArr (items : list json)
| JObj (props : list (string * json)).

(** A value that may be [undefined]. *)
Definition jsval := option json.

(** [o[k]] for a key that is no built-in property: the first entry
    of that key in an object, [undefined] in anything else. *)
Fixpoint lookup_prop (props : list (string * json)) (k : string) : jsval :=
  match props with
  | [] => None
  | (k', v) :: rest => if bool_decide (k' = k) then Some v else lookup_prop rest k
  end.

Definition get_prop (o : json) (k : string) : jsval :=
  match o with
  | JObj props => lookup_prop props k
  | _ => None
  end.

(** Truthiness: [undefined], [null], [false], [0] and [''] are falsy. *)
Definition truthy (v : jsval) : bool :=
  match v with
  | None => false
  | Some JNull => false
  | Some (JBool b) => b
  | Some (JNum n) => negb (n =? 0)%Z
  | Some (JStr s) => negb (bool_decide (s = ""))
  | Some (JArr _) | Some (JObj _) => true
  end.

(** [a || b] *)
Definition js_or (a : jsval) (b : json) : jsval :=
  if truthy a then a else Some b.

(** An object literal [{ k1: v1, ... }] as it is serialized: a
    property whose value is [undefined] is left out. *)
Fixpoint object_literal (props : list (string * jsval)) : list (string * json) :=
  match props with
  | [] => []
  | (k, Some v) :: rest => (k, v) :: object_literal rest
  | (_, None) :: rest => object_literal rest
  end.

End Js.

(** ** The form persistence service ([Full stack--2/index.js]) *)

Module FormService.
Import Js.

(** *** The world the handlers run in *)

(** What [DATA_FILE] holds, seen through [JSON.parse]: text that does
    not parse, or the text of a JSON value. *)
Inductive content :=
| Malformed
| WellFormed (v : json).

(** [DATA_FILE] on disk: no such file, a file that cannot be read, or
    a file with some content. What a file that cannot be read holds is
    not part of the state. *)
Inductive file_state :=
| Absent
| Unreadable
| Holds (c : content).

(** Objects made by [JSON.parse] and by array literals live in the
    heap and are named by their address, so that [push] and [reverse]
    change them in place. *)
Definition ref := nat.

Record world := World {
  file : file_state;
  heap : list json;
  console : list string
}.

Definition set_file (f : file_state) (w : world) : world :=
  World f (heap w) (console w).
Definition set_heap (h : list json) (w : world) : world :=
  World (file w) h (console w).
Definition set_console (c : list string) (w : world) : world :=
  World (file w) (heap w) c.

(** How a call of [writeFile] ends: the text is written, or the file
    could not be opened (and is left as it was), or it was opened and
    cut short. *)
Inductive write_outcome :=
| Written
| NotOpened
| Truncated.

(** What a request finds outside the program: the clock read by
    [Date.now()] and by [new Date().toISOString()], and the fate of
    a write. *)
Record env := Env {
  now_ms : Z;
  now_iso : string;
  write_result : write_outcome
}.

(** *** Computations that change the world and may throw *)

Inductive result (A : Type) :=
| Val (a : A)
| Throw (e : string).
Arguments Val {A} a.
Arguments Throw {A} e.

Definition M (A : Type) : Type := world -> result A * world.

Definition ret {A} (a : A) : M A := fun w => (Val a, w).

Definition bind {A B} (m : M A) (k : A -> M B) : M B :=
  fun w =>
    match m w with
    | (Val a, w') => k a w'
    | (Throw e, w') => (Throw e, w')
    end.

Definition throw {A} (e : string) : M A := fun w => (Throw e, w).

(** [try { m } catch (error) { h error }] *)
Definition try_catch {A} (m : M A) (h : string -> M A) : M A :=
  fun w =>
    match m w with
    | (Val a, w') => (Val a, w')
    | (Throw e, w') => h e w'
    end.

Notation "'let*' x ':=' m 'in' k" := (bind m (fun x => k))
  (at level 10, x name, m at level 100, k at level 200).
Notation "m ';;;' k" := (bind m (fun _ => k))
  (at level 100, k at level 200, right associativity).

(** *** Heap, console and file primitives *)

Definition alloc (v : json) : M ref :=
  fun w => (Val (length (heap w)), set_heap (heap w ++ [v]) w).

Definition deref (r : ref) : M json :=
  fun w =>
    match heap w !! r with
    | Some v => (Val v, w)
    | None => (Throw "ReferenceError", w)
    end.

Definition store (r : ref) (v : json) : M unit :=
  fun w => (Val tt, set_heap (<[r:=v]> (heap w)) w).

(** [data.push(x)]: a [TypeError] when [data] is no array. *)
Definition array_push (data : ref) (x : json) : M unit :=
  let* v := deref data in
  match v with
  | JArr items => store data (JArr (items ++ [x]))
  | _ => throw "TypeError"
  end.

(** [data.reverse()]: reverses in place and returns the same array. *)
Definition array_reverse (data : ref) : M ref :=
  let* v := deref data in
  match v with
  | JArr items => store data (JArr (rev items)) ;;; ret data
  | _ => throw "TypeError"
  end.

Definition console_error (msg : string) : M unit :=
  fun w => (Val tt, set_console (console w ++ [msg]) w).

Definition existsSync : M bool :=
  fun w => (Val (match file w with Absent => false | _ => true end), w).

Definition readFileAsync : M content :=
  fun w =>
    match file w with
    | Holds c => (Val c, w)
    | Absent => (Throw "ENOENT", w)
    | Unreadable => (Throw "EACCES", w)
    end.

Definition JSON_parse (data : content) : M ref :=
  match data with
  | WellFormed v => alloc v
  | Malformed => throw "SyntaxError"
  end.

(** [writeFileAsync(DATA_FILE, JSON.stringify(v, null, 2))]: after a
    write that succeeds the file holds text that parses to [v]. *)
Definition writeFileAsync (e : env) (v : json) : M unit :=
  fun w =>
    match write_result e with
    | Written => (Val tt, set_file (Holds (WellFormed v)) w)
    | NotOpened => (Throw "ENOENT", w)
    | Truncated => (Throw "ENOSPC", set_file (Holds Malformed) w)
    end.

(** *** The helpers of [index.js] *)

Definition readData : M ref :=
  try_catch
    (let* there := existsSync in
     if negb there then alloc (JArr [])
     else
       let* data := readFileAsync in
       JSON_parse data)
    (fun error =>
       console_error "Error reading data:" ;;;
       alloc (JArr [])).

Definition writeData (e : env) (data : ref) : M unit :=
  try_catch
    (let* v := deref data in
     writeFileAsync e v)
    (fun error => console_error "Error writing data:").

(** *** Requests and responses *)

Record request := Request {
  query : json;          (* [req.query], always an object *)
  body : jsval           (* [req.body] *)
}.

Inductive response :=
| Render (view : string) (locals : list (string * jsval))
| Redirect (location : string)
| Json (status : Z) (payload : json).

(** [const { name, email, phone, message } = req.body]: a [TypeError]
    when the body is [undefined] or [null]. *)
Definition destructure (b : jsval) : M json :=
  match b with
  | None | Some JNull => throw "TypeError"
  | Some o => ret o
  end.

(** The object literal of lines 88-95. *)
Definition newSubmission (e : env) (name email phone message : jsval) : json :=
  JObj (object_literal
    [ ("id", Some (JNum (now_ms e)));
      ("name", name);
      ("email", email);
      ("phone", js_or phone (JStr ""));
      ("message", js_or message (JStr ""));
      ("timestamp", Some (JStr (now_iso e))) ]).

(** *** The routes *)

(** [app.get('/')] *)
Definition get_root (req : request) : M response :=
  ret (Render "form"
         [ ("title", Some (JStr "User Registration Form"));
           ("message", get_prop (query req) "message") ]).

(** [app.post('/submit')] *)
Definition post_submit (e : env) (req : request) : M response :=
  try_catch
    (let* o := destructure (body req) in
     let name := get_prop o "name" in
     let email := get_prop o "email" in
     let phone := get_prop o "phone" in
     let message := get_prop o "message" in
     if negb (truthy name) || negb (truthy email) then
       ret (Redirect "/?message=Name and email are required")
     else
       let* existingData := readData in
       array_push existingData (newSubmission e name email phone message) ;;;
       writeData e existingData ;;;
       ret (Redirect "/display"))
    (fun error =>
       console_error "Error processing form:" ;;;
       ret (Redirect "/?message=An error occurred. Please try again.")).

(** [app.get('/display')] *)
Definition get_display : M response :=
  try_catch
    (let* data := readData in
     let* reversed := array_reverse data in
     let* submissions := deref reversed in
     ret (Render "display"
            [ ("title", Some (JStr "Submitted Data"));
              ("submissions", Some submissions) ]))
    (fun error =>
       console_error "Error displaying data:" ;;;
       ret (Render "display"
              [ ("title", Some (JStr "Submitted Data"));
                ("submissions", Some (JArr []));
                ("error", Some (JStr "Error loading data")) ])).

(** [app.get('/api/data')] *)
Definition get_api_data : M response :=
  try_catch
    (let* data := readData in
     let* v := deref data in
     ret (Json 200 v))
    (fun error =>
       console_error "Error fetching data:" ;;;
       ret (Json 500 (JObj [("error", JStr "Error fetching data")]))).


(** *** The persisted collection *)

(** What [readData] yields for a state of [DATA_FILE]: the parsed value,
    and the empty array when the file is absent or cannot be read or
    parsed. *)
Definition loaded (f : file_state) : json :=
  match f with
  | Holds (WellFormed v) => v
  | Absent | Unreadable | Holds Malformed => JArr []
  end.

(** Reading or parsing [DATA_FILE] throws. *)
Definition read_fails (f : file_state) : bool :=
  match f with
  | Unreadable | Holds Malformed => true
  | Absent | Holds (WellFormed _) => false
  end.

(** The records of the persisted collection; a document that is no
    array has none. *)
Definition collection (f : file_state) : list json :=
  match loaded f with
  | JArr items => items
  | _ => []
  end.

(** A field of the request body, [undefined] when there is no body. *)
Definition field (req : request) (k : string) : jsval :=
  match body req with
  | Some o => get_prop o k
  | None => None
  end.

Definition nonempty_string (v : jsval) : Prop :=
  exists s, v = Some (JStr s) /\ s <> "".

Definition absent_or_empty (v : jsval) : Prop :=
  v = None \/ v = Some (JStr "").

Definition is_string (v : jsval) : Prop :=
  exists s, v = Some (JStr s).

(** The invariant of the data model on one record and on the document. *)
Definition record_ok (r : json) : Prop :=
  nonempty_string (get_prop r "name") /\ nonempty_string (get_prop r "email").

Definition invariant (f : file_state) : Prop :=
  Forall record_ok (collection f).

(** A record carries what was submitted. *)
Definition matches (r : json) (input : env * request) : Prop :=
  let '(e, req) := input in
  get_prop r "id" = Some (JNum (now_ms e)) /\
  get_prop r "name" = field req "name" /\
  get_prop r "email" = field req "email" /\
  get_prop r "phone" = js_or (field req "phone") (JStr "") /\
  get_prop r "message" = js_or (field req "message") (JStr "") /\
  get_prop r "timestamp" = Some (JStr (now_iso e)).


(** Requests handled one after the other, each to its end. *)
Fixpoint post_all (inputs : list (env * request)) (w : world) : world :=
  match inputs with
  | [] => w
  | (e, req) :: rest => post_all rest (snd (post_submit e req w))
  end.


(** *** The effect of each route on the world, in closed form *)

(** The world after [readData]: one more heap cell, holding what was
    loaded, and one more console line when reading threw. *)
Definition after_read (w : world) : world :=
  World (file w)
        (heap w ++ [loaded (file w)])
        (if read_fails (file w) then console w ++ ["Error reading data:"]
         else console w).

(** [DATA_FILE] after [post_submit], from [DATA_FILE] before it. *)
Definition submit_file (e : env) (req : request) (f : file_state) : file_state :=
  match body req with
  | None | Some JNull => f
  | Some o =>
      if negb (truthy (get_prop o "name")) || negb (truthy (get_prop o "email")) then f
      else
        match loaded f with
        | JArr items =>
            match write_result e with
            | Written =>
                Holds (WellFormed (JArr (items ++
                  [newSubmission e (get_prop o "name") (get_prop o "email")
                     (get_prop o "phone") (get_prop o "message")])))
            | NotOpened => f
            | Truncated => Holds Malformed
            end
        | _ => f
        end
  end.

(** A submission that passes the guard and whose write succeeds. *)
Definition accepted (input : env * request) : Prop :=
  nonempty_string (field input.2 "name") /\
  nonempty_string (field input.2 "email") /\
  write_result input.1 = Written.

(** The guard of [post_submit] on one stored record and on the document. *)
Definition record_truthy (r : json) : Prop :=
  truthy (get_prop r "name") = true /\ truthy (get_prop r "email") = true.

Definition guarded (f : file_state) : Prop :=
  Forall record_truthy (collection f).

Definition string_or_absent (v : jsval) : Prop :=
  v = None \/ is_string v.

End FormService.

(** ** Concrete requests and worlds *)

Module Samples.

Module Static.
Import StaticServer.

(** A deployment in [/srv/app] with a directory [public-backup] next
    to [public]. *)
Definition fs : filesystem :=
  fun p =>
    if bool_decide (p = "/srv/app/public/index.html") then Some "<h1>Home</h1>"
    else if bool_decide (p = "/srv/app/public/data.bin") then Some "0101"
    else if bool_decide (p = "/srv/app/public-backup/secrets.txt") then Some "top secret"
    else None.

Definition no_files : filesystem := fun _ => None.

Definition get_home : request := Request "GET" "/" [].
Definition delete_home : request := Request "DELETE" "/" [("Accept", "*/*")].
Definition get_bin : request := Request "GET" "/data.bin" [].
Definition get_sibling : request := Request "GET" "/../public-backup/secrets.txt" [].
Definition get_passwd : request := Request "GET" "/../../../etc/passwd" [].

End Static.

Module Form.
Import Js FormService.

Definition fresh : world := World Absent [] [].
Definition locked : world := World Unreadable [] [].
(** [DATA_FILE] holds [{}]. *)
Definition not_a_list : world := World (Holds (WellFormed (JObj []))) [] [].

Definition noon : env := Env 1700000000000 "2023-11-14T22:13:20.000Z" Written.
Definition later : env := Env 1700000000001 "2023-11-14T22:13:20.001Z" Written.
Definition noon_disk_gone : env := Env 1700000000000 "2023-11-14T22:13:20.000Z" NotOpened.

Definition form_of (fields : list (string * json)) : request :=
  Request (JObj []) (Some (JObj fields)).

Definition ada : request :=
  form_of [("name", JStr "Ada"); ("email", JStr "ada@example.com")].
Definition grace : request :=
  form_of [("name", JStr "Grace"); ("email", JStr "grace@example.com");
           ("phone", JStr "555"); ("message", JStr "hello")].
Definition no_email : request := form_of [("name", JStr "Ada"); ("email", JStr "")].
(** The JSON body [{"name": [], "email": []}]. *)
Definition empty_arrays : request := form_of [("name", JArr []); ("email", JArr [])].

End Form.

End Samples.

(** ** Cases of a submission *)

Module FormCases.
Import Js FormService.

Definition is_array (v : json) : bool :=
  match v with
  | JArr _ => true
  | _ => false
  end.

(** The three redirects of [post_submit]. *)
Definition to_display : response := Redirect "/display".
Definition to_form_required : response :=
  Redirect "/?message=Name and email are required".
Definition to_form_error : response :=
  Redirect "/?message=An error occurred. Please try again.".

(** The body can be destructured and the guard of line 80 holds. *)
Definition guard_fails (req : request) : Prop :=
  exists o, body req = Some o /\ o <> JNull /\
    (truthy (get_prop o "name") = false \/ truthy (get_prop o "email") = false).

(** The body can be destructured and passes the guard. *)
Definition guard_passes (req : request) : Prop :=
  exists o, body req = Some o /\
    truthy (get_prop o "name") = true /\ truthy (get_prop o "email") = true.

(** The result of [post_submit], case by case. *)
Definition submit_result (e : env) (req : request) (w : world)
  : result response * world :=
  match body req with
  | None | Some JNull =>
      (Val to_form_error, set_console (console w ++ ["Error processing form:"]) w)
  | Some o =>
      if negb (truthy (get_prop o "name")) || negb (truthy (get_prop o "email")) then
        (Val to_form_required, w)
      else
        match loaded (file w) with
        | JArr items =>
            let items' :=
              items ++ [newSubmission e (get_prop o "name") (get_prop o "email")
                          (get_prop o "phone") (get_prop o "message")] in
            let w' := set_heap (heap w ++ [JArr items']) (after_read w) in
            (Val to_display,
             match write_result e with
             | Written => set_file (Holds (WellFormed (JArr items'))) w'
             | NotOpened => set_console (console w' ++ ["Error writing data:"]) w'
             | Truncated =>
                 set_console (console w' ++ ["Error writing data:"])
                   (set_file (Holds Malformed) w')
             end)
        | _ =>
            (Val to_form_error,
             set_console (console (after_read w) ++ ["Error processing form:"])
               (after_read w))
        end
  end.

(** Worlds and requests for the cases. *)
Definition ada_record : json :=
  JObj [ ("id", JNum 1700000000000); ("name", JStr "Ada");
         ("email", JStr "ada@example.com"); ("phone", JStr "");
         ("message", JStr ""); ("timestamp", JStr "2023-11-14T22:13:20.000Z") ].

Definition stocked : world := World (Holds (WellFormed (JArr [ada_record]))) [] [].
Definition garbled : world := World (Holds Malformed) [] [].

Definition disk_full : env := Env 1700000000002 "2023-11-14T22:13:20.002Z" Truncated.

(** The JSON body [{"name": 0, "email": "z@example.com"}]. *)
Definition zero_name : request :=
  Samples.Form.form_of [("name", JNum 0); ("email", JStr "z@example.com")].

(** A form with an empty phone and a field the service does not know. *)
Definition with_role : request :=
  Samples.Form.form_of
    [ ("name", JStr "Eve"); ("email", JStr "eve@example.com");
      ("phone", JStr ""); ("role", JStr "admin") ].

(** In the run of [inputs] from [w], every request finds a document that
    is absent or that it can read and parse. *)
Fixpoint every_read_succeeds (inputs : list (env * request)) (w : world) : Prop :=
  match inputs with
  | [] => True
  | (e, req) :: rest =>
      read_fails (file w) = false /\
      every_read_succeeds rest (snd (post_submit e req w))
  end.

End FormCases.

(** * Facts about the path functions *)

Module PathFacts.
Import JsString Path.

Lemma startsWith_refl s : startsWith s s = true.
Proof.
  unfold startsWith. induction s as [|c s IH]; simpl; [done|].
  destruct (ascii_dec c c); [done | congruence].
Qed.

Lemma startsWith_app s p q : startsWith s (p +:+ q) = true -> startsWith s p = true.
Proof.
  unfold startsWith. revert s.
  induction p as [|c p IH]; intros s; [by destruct s|].
  change (String c p +:+ q) with (String c (p +:+ q)).
  destruct s as [|d s]; simpl; [done|].
  destruct (ascii_dec c d); [apply IH | done].
Qed.

Example resolve_inside :
  resolve "/home" ["/srv/app/public"; "./a/../b/./c.html"] = "/srv/app/public/b/c.html".
Proof. reflexivity. Qed.

Example resolve_above_root :
  resolve "/home" ["/srv/app/public"; "./../../../../etc/passwd"] = "/etc/passwd".
Proof. reflexivity. Qed.

Example resolve_relative :
  resolve "/home/me" ["app"; "../public"] = "/home/me/public".
Proof. reflexivity. Qed.

Example extname_samples :
  extname <$> ["/a/index.html"; "/a/b.c/d"; "/a/.bashrc"; "/a/x.tar.gz"; "/a/x."; "/a.b/.x.md"]
  = [".html"; ""; ""; ".gz"; "."; ".md"].
Proof. reflexivity. Qed.

End PathFacts.

(** * Facts about the static asset server *)

Module StaticServerFacts.
Import JsString Path StaticServer PathFacts.

Lemma inside_root_startsWith root p :
  inside_root root p = true -> startsWith p root = true.
Proof.
  unfold inside_root. intros [H|H]%orb_true_iff.
  - apply bool_decide_eq_true in H as ->. apply startsWith_refl.
  - by apply startsWith_app in H.
Qed.

Lemma mime_table_keys : NoDup (mime_table.*1).
Proof. apply (bool_decide_unpack _). by vm_compute. Qed.

Lemma mimeTypes_listed ext m :
  (ext, m) ∈ mime_table ->
  or_else (mimeTypes !! ext) "application/octet-stream" = m.
Proof.
  intros H. unfold mimeTypes.
  assert (m <> "") as Hm.
  { unfold mime_table in H. rewrite !elem_of_cons, elem_of_nil in H.
    intros ->. intuition congruence. }
  apply (elem_of_list_to_map_1 (M := gmap string)) in H; [|apply mime_table_keys].
  rewrite H. unfold or_else. by rewrite bool_decide_eq_false_2.
Qed.

Lemma mimeTypes_unlisted ext :
  (forall m, (ext, m) ∉ mime_table) ->
  or_else (mimeTypes !! ext) "application/octet-stream" = "application/octet-stream".
Proof.
  intros H. unfold mimeTypes.
  rewrite (not_elem_of_list_to_map_1 (M := gmap string)); [done|].
  intros [[k m] [-> Hin]]%list_elem_of_fmap. by apply (H m).
Qed.

Section Server.
Variables (cwd dirname : string).

(** What the guard of line 27 does reject: a path that does not begin
    with the text of the root gets 403 and is never read. *)
Lemma server_forbidden fs req :
  startsWith (resolved_path cwd dirname req) (PUBLIC_DIR cwd dirname) = false ->
  server cwd dirname fs req = (Response 403 [] "Forbidden", []).
Proof. intros H. unfold server. by rewrite H. Qed.

(** C6. A request whose path resolves inside the public root, to a file
    that [readFile] can read, is answered with status 200, the content of
    the file, and the [Content-Type] that [mime_table] lists for the
    extension of the file, or [application/octet-stream] when the table
    does not list the extension. *)
Theorem server_serves_file fs req data :
  inside_root (PUBLIC_DIR cwd dirname) (resolved_path cwd dirname req) = true ->
  fs (resolved_path cwd dirname req) = Some data ->
  exists ct,
    server cwd dirname fs req
      = (Response 200 [("Content-Type", ct)] data, [resolved_path cwd dirname req]) /\
    (forall m, (extname (resolved_path cwd dirname req), m) ∈ mime_table -> ct = m) /\
    ((forall m, (extname (resolved_path cwd dirname req), m) ∉ mime_table) ->
     ct = "application/octet-stream").
Proof.
  intros Hin Hfs. apply inside_root_startsWith in Hin.
  eexists. split; [|split].
  - unfold server. rewrite Hin, Hfs. reflexivity.
  - intros m Hm. by apply mimeTypes_listed.
  - intros Hm. by apply mimeTypes_unlisted.
Qed.

(** C10. The handler reads nothing of the request but its URL: two
    requests with the same URL get the same response and cause the same
    file reads on the same file system, whatever their methods and
    headers. *)
Theorem server_ignores_method fs (r1 r2 : request) :
  url r1 = url r2 ->
  server cwd dirname fs r1 = server cwd dirname fs r2.
Proof.
  intros Hurl. unfold server, resolved_path. by rewrite Hurl.
Qed.

End Server.

(** C1. With [index.js] in [/srv/app], the request for
    [/../public-backup/secrets.txt] resolves to a file of the directory
    [public-backup], outside the public root. The guard lets it pass,
    because the text of the path begins with the text of the root: the
    file is read and sent with status 200, and where there is no such
    file the read is still made and the answer is 404, not 403. *)
Theorem server_reads_sibling_directory :
  resolved_path "/" "/srv/app" Samples.Static.get_sibling
    = "/srv/app/public-backup/secrets.txt" /\
  inside_root (PUBLIC_DIR "/" "/srv/app")
    (resolved_path "/" "/srv/app" Samples.Static.get_sibling) = false /\
  server "/" "/srv/app" Samples.Static.fs Samples.Static.get_sibling
    = (Response 200 [("Content-Type", "application/octet-stream")] "top secret",
       ["/srv/app/public-backup/secrets.txt"]) /\
  server "/" "/srv/app" Samples.Static.no_files Samples.Static.get_sibling
    = (Response 404 [] "Not Found", ["/srv/app/public-backup/secrets.txt"]).
Proof. repeat split; vm_compute; reflexivity. Qed.

Example server_rejects_passwd :
  server "/" "/srv/app" Samples.Static.fs Samples.Static.get_passwd
    = (Response 403 [] "Forbidden", []).
Proof. apply server_forbidden. reflexivity. Qed.

Lemma server_serves_file_witness :
  exists ct,
    server "/" "/srv/app" Samples.Static.fs Samples.Static.get_home
      = (Response 200 [("Content-Type", ct)] "<h1>Home</h1>",
         [resolved_path "/" "/srv/app" Samples.Static.get_home]) /\
    (forall m, (extname (resolved_path "/" "/srv/app" Samples.Static.get_home), m) ∈ mime_table -> ct = m) /\
    ((forall m, (extname (resolved_path "/" "/srv/app" Samples.Static.get_home), m) ∉ mime_table) ->
     ct = "application/octet-stream").
Proof.
  apply (server_serves_file "/" "/srv/app" Samples.Static.fs Samples.Static.get_home "<h1>Home</h1>");
    reflexivity.
Defined.

Lemma server_ignores_method_witness :
  server "/" "/srv/app" Samples.Static.fs Samples.Static.get_home
  = server "/" "/srv/app" Samples.Static.fs Samples.Static.delete_home.
Proof.
  apply (server_ignores_method "/" "/srv/app" Samples.Static.fs
           Samples.Static.get_home Samples.Static.delete_home).
  reflexivity.
Defined.

End StaticServerFacts.

(** * Facts about the form persistence service *)

Module FormServiceFacts.
Import Js FormService.

(** ** Running the helpers *)

Lemma lookup_fresh (h : list json) (v : json) : (h ++ [v]) !! length h = Some v.
Proof. by apply list_lookup_middle. Qed.

Lemma insert_fresh (h : list json) (v v' : json) :
  <[length h := v']> (h ++ [v]) = h ++ [v'].
Proof.
  rewrite insert_app_r_alt by lia.
  by replace (length h - length h) with 0 by lia.
Qed.

(** [readData] never throws: every failure inside it ends in a fresh
    empty array. *)
Lemma readData_run w : readData w = (Val (length (heap w)), after_read w).
Proof. destruct w as [[| |[|v]] h c]; reflexivity. Qed.

Ltac run :=
  repeat first
    [ rewrite readData_run
    | rewrite lookup_fresh
    | rewrite insert_fresh
    | progress (unfold try_catch, bind, ret, throw, deref, store, alloc,
                  console_error, array_push, array_reverse, writeData,
                  writeFileAsync, destructure)
    | progress (cbn [fst snd negb orb file heap console set_file set_heap
                     set_console after_read]) ].

(** ** Running the routes *)

Lemma get_root_run req w : snd (get_root req w) = w.
Proof. reflexivity. Qed.

Lemma get_api_data_run w :
  get_api_data w = (Val (Json 200 (loaded (file w))), after_read w).
Proof. unfold get_api_data. run. reflexivity. Qed.

Lemma get_display_run w :
  get_display w =
    match loaded (file w) with
    | JArr items =>
        (Val (Render "display"
                [ ("title", Some (JStr "Submitted Data"));
                  ("submissions", Some (JArr (rev items))) ]),
         set_heap (heap w ++ [JArr (rev items)]) (after_read w))
    | _ =>
        (Val (Render "display"
                [ ("title", Some (JStr "Submitted Data"));
                  ("submissions", Some (JArr []));
                  ("error", Some (JStr "Error loading data")) ]),
         set_console (console (after_read w) ++ ["Error displaying data:"])
           (after_read w))
    end.
Proof.
  unfold get_display. run. destruct (loaded (file w)); run; reflexivity.
Qed.

Lemma post_submit_file e req w :
  file (snd (post_submit e req w)) = submit_file e req (file w).
Proof.
  unfold post_submit, submit_file.
  destruct (body req) as [o|]; [|reflexivity].
  destruct o; try reflexivity; run;
  match goal with
  | |- context [negb (truthy ?a) || negb (truthy ?b)] =>
      destruct (negb (truthy a) || negb (truthy b)); [reflexivity|]
  end; run;
  destruct (loaded (file w)); try reflexivity; run;
  destruct (write_result e); reflexivity.
Qed.


(** ** Fields and the guard *)

Lemma nonempty_string_truthy v : nonempty_string v -> truthy v = true.
Proof.
  intros (s & -> & Hs). simpl. by rewrite bool_decide_eq_false_2.
Qed.

Lemma truthy_string_nonempty v : is_string v -> truthy v = true -> nonempty_string v.
Proof.
  intros [s ->] Ht. exists s. split; [done|].
  intros ->. discriminate.
Qed.


Lemma newSubmission_props e name email phone message n m :
  name = Some n -> email = Some m ->
  let r := newSubmission e name email phone message in
  get_prop r "id" = Some (JNum (now_ms e)) /\
  get_prop r "name" = name /\
  get_prop r "email" = email /\
  get_prop r "phone" = js_or phone (JStr "") /\
  get_prop r "message" = js_or message (JStr "") /\
  get_prop r "timestamp" = Some (JStr (now_iso e)).
Proof.
  intros -> ->. unfold newSubmission, js_or.
  destruct (truthy phone) eqn:Hp, (truthy message) eqn:Hm;
    destruct phone as [p|], message as [q|]; try discriminate;
    repeat split; reflexivity.
Qed.


Lemma absent_or_empty_falsy v : absent_or_empty v -> truthy v = false.
Proof. by intros [-> | ->]. Qed.

Lemma collection_loaded f items : loaded f = JArr items -> collection f = items.
Proof. unfold collection. by intros ->. Qed.

(** [DATA_FILE] after an accepted submission. *)
Lemma submit_file_accepted e req f items :
  accepted (e, req) ->
  loaded f = JArr items ->
  exists r,
    submit_file e req f = Holds (WellFormed (JArr (items ++ [r]))) /\
    matches r (e, req).
Proof.
  intros (Hn & Hm & Hw) Hl. simpl in Hn, Hm, Hw.
  pose proof (nonempty_string_truthy _ Hn) as Tn.
  pose proof (nonempty_string_truthy _ Hm) as Tm.
  destruct Hn as (n & Hn & _), Hm as (m & Hm & _).
  unfold matches, submit_file. unfold field in *.
  destruct (body req) as [o|]; [|done].
  destruct o; try discriminate Hn.
  rewrite Tn, Tm, Hl, Hw. cbn [negb orb].
  eexists. split; [reflexivity|].
  eapply newSubmission_props; eassumption.
Qed.

(** Accepted submissions, one after the other, extend the document by
    their records, in their order. *)
Lemma post_all_loaded inputs : forall w items,
  loaded (file w) = JArr items ->
  Forall accepted inputs ->
  exists rs,
    Forall2 matches rs inputs /\
    loaded (file (post_all inputs w)) = JArr (items ++ rs).
Proof.
  induction inputs as [|[e req] inputs IH]; intros w items Hl Hacc.
  - exists []. split; [constructor|]. by rewrite app_nil_r.
  - apply Forall_cons in Hacc as [Ha Hacc].
    destruct (submit_file_accepted e req (file w) items Ha Hl) as (r & Hf & Hr).
    destruct (IH (snd (post_submit e req w)) (items ++ [r])) as (rs & Hrs & Hl');
      [by rewrite post_submit_file, Hf | done |].
    exists (r :: rs). split; [by constructor|].
    simpl. by rewrite Hl', <- app_assoc.
Qed.

(** ** The claims *)

(** C2. With a backing document that exists but cannot be read, and
    with one whose text does not parse, [GET /api/data] answers with
    status 200 and the empty listing: [readData] has caught the failure,
    so the [catch] of the route, which would send status 500 and the
    error object, is not reached. *)
Theorem get_api_data_unreadable :
  (read_fails (file Samples.Form.locked) = true /\
   fst (get_api_data Samples.Form.locked) = Val (Json 200 (JArr [])) /\
   forall p, fst (get_api_data Samples.Form.locked) <> Val (Json 500 p)) /\
  (read_fails (file FormCases.garbled) = true /\
   fst (get_api_data FormCases.garbled) = Val (Json 200 (JArr [])) /\
   forall p, fst (get_api_data FormCases.garbled) <> Val (Json 500 p)).
Proof. repeat split; intros p; discriminate. Qed.



(** C4. A submission whose name or email is absent or the empty string
    is answered by a redirect to the form with a message, and leaves the
    document, and so the collection and its length, as they were; nothing
    is even read. *)
Theorem post_submit_rejects e req w :
  absent_or_empty (field req "name") \/ absent_or_empty (field req "email") ->
  exists msg,
    msg <> "" /\
    fst (post_submit e req w) = Val (Redirect ("/?message=" +:+ msg)) /\
    file (snd (post_submit e req w)) = file w /\
    length (collection (file (snd (post_submit e req w))))
      = length (collection (file w)) /\
    heap (snd (post_submit e req w)) = heap w.
Proof.
  intros H. unfold field in H. unfold post_submit.
  destruct (body req) as [o|].
  - assert (negb (truthy (get_prop o "name")) || negb (truthy (get_prop o "email"))
            = true) as Hg.
    { destruct H as [H|H]; rewrite (absent_or_empty_falsy _ H); [done|].
      apply orb_true_r. }
    destruct o; run; rewrite ?Hg;
      first [ by exists "An error occurred. Please try again."
            | by exists "Name and email are required" ].
  - by exists "An error occurred. Please try again.".
Qed.

(** Whatever the submission, the records that [post_submit] leaves in
    the document have passed its guard. *)
Lemma post_submit_guarded e req w :
  guarded (file w) -> guarded (file (snd (post_submit e req w))).
Proof.
  rewrite post_submit_file. unfold guarded, submit_file.
  destruct (body req) as [o|]; [|done].
  destruct o; try done.
  destruct (truthy (get_prop (JObj props) "name")) eqn:Tn; [|done].
  destruct (truthy (get_prop (JObj props) "email")) eqn:Tm; [|done].
  cbn [negb orb].
  destruct (loaded (file w)) as [| | | |items|] eqn:Hl; try done.
  destruct (write_result e); [|done|by constructor].
  rewrite (collection_loaded _ _ Hl). intros Hinv.
  unfold collection. cbn [loaded].
  apply Forall_app. split; [done|]. constructor; [|constructor].
  destruct (get_prop (JObj props) "name") as [n|] eqn:Hn; [|done].
  destruct (get_prop (JObj props) "email") as [m|] eqn:Hm; [|done].
  pose proof (newSubmission_props e (Some n) (Some m)
                (get_prop (JObj props) "phone") (get_prop (JObj props) "message")
                n m eq_refl eq_refl) as (_ & Hrn & Hrm & _).
  unfold record_truthy. by rewrite Hrn, Hrm.
Qed.

(** C5, as the code has it. When the submitted name and email are
    strings (or absent), [post_submit] keeps the invariant that every
    record of the collection has a non-empty string as name and as
    email, whatever becomes of the read and of the write. *)
Theorem post_submit_keeps_invariant e req w :
  string_or_absent (field req "name") ->
  string_or_absent (field req "email") ->
  invariant (file w) ->
  invariant (file (snd (post_submit e req w))).
Proof.
  intros Sn Sm. rewrite post_submit_file. unfold invariant, submit_file.
  unfold field in Sn, Sm.
  destruct (body req) as [o|]; [|done].
  destruct o; try done.
  destruct (truthy (get_prop (JObj props) "name")) eqn:Tn; [|done].
  destruct (truthy (get_prop (JObj props) "email")) eqn:Tm; [|done].
  cbn [negb orb].
  destruct (loaded (file w)) as [| | | |items|] eqn:Hl; try done.
  destruct (write_result e); [|done|by constructor].
  rewrite (collection_loaded _ _ Hl). intros Hinv.
  unfold collection. cbn [loaded].
  apply Forall_app. split; [done|]. constructor; [|constructor].
  destruct Sn as [Sn|Sn]; [by rewrite Sn in Tn|].
  destruct Sm as [Sm|Sm]; [by rewrite Sm in Tm|].
  pose proof (truthy_string_nonempty _ Sn Tn) as Nn.
  pose proof (truthy_string_nonempty _ Sm Tm) as Nm.
  destruct Sn as [n Hn], Sm as [m Hm].
  pose proof (newSubmission_props e _ _
                (get_prop (JObj props) "phone") (get_prop (JObj props) "message")
                _ _ Hn Hm) as (_ & Hrn & Hrm & _).
  unfold record_ok. by rewrite Hrn, Hrm.
Qed.

(** C5 fails as stated: the JSON body [{"name": [], "email": []}]
    passes the guard, since an empty array is truthy, and is stored as a
    record whose name and email are empty arrays. *)
Lemma post_submit_stores_empty_arrays :
  invariant (file Samples.Form.fresh) /\
  (exists r,
     collection (file (snd (post_submit Samples.Form.noon Samples.Form.empty_arrays
                               Samples.Form.fresh))) = [r] /\
     get_prop r "name" = Some (JArr []) /\
     get_prop r "email" = Some (JArr [])) /\
  ~ invariant (file (snd (post_submit Samples.Form.noon Samples.Form.empty_arrays
                            Samples.Form.fresh))).
Proof.
  split; [constructor|]. split.
  - eexists. repeat split; reflexivity.
  - intros Hinv. apply Forall_cons in Hinv as [[(s & Hs & _) _] _]. discriminate Hs.
Qed.

(** C7. On every document that loads as an array, also after any run
    of accepted submissions, [GET /api/data] lists the records in the
    order of their insertion and [GET /display] shows the same records in
    the reverse of that order, the latest first. *)
Theorem display_reverses_api_data inputs w items :
  loaded (file w) = JArr items ->
  Forall accepted inputs ->
  exists rs,
    Forall2 matches rs inputs /\
    fst (get_api_data (post_all inputs w)) = Val (Json 200 (JArr (items ++ rs))) /\
    fst (get_display (post_all inputs w))
      = Val (Render "display"
               [ ("title", Some (JStr "Submitted Data"));
                 ("submissions", Some (JArr (rev rs ++ rev items))) ]).
Proof.
  intros Hl Hacc.
  destruct (post_all_loaded inputs w items Hl Hacc) as (rs & Hrs & Hl').
  exists rs. rewrite get_api_data_run, get_display_run, Hl', rev_app_distr.
  done.
Qed.

(** C8. After N accepted submissions handled one after the other, on a
    document that was absent or the empty array, [GET /api/data] returns
    exactly N records, the i-th carrying the i-th submission. *)
Theorem post_all_round_trip inputs w :
  file w = Absent \/ file w = Holds (WellFormed (JArr [])) ->
  Forall accepted inputs ->
  exists rs,
    fst (get_api_data (post_all inputs w)) = Val (Json 200 (JArr rs)) /\
    collection (file (post_all inputs w)) = rs /\
    length rs = length inputs /\
    Forall2 matches rs inputs.
Proof.
  intros Hf Hacc.
  destruct (post_all_loaded inputs w [] ) as (rs & Hrs & Hl'); [|done|].
  { by destruct Hf as [-> | ->]. }
  exists rs. rewrite get_api_data_run, Hl'. simpl.
  repeat split; [by apply collection_loaded | by eapply Forall2_length | done].
Qed.

(** C9. The three GET routes leave [DATA_FILE] as it was. The reversal
    in [GET /display] changes a heap cell made for that request only:
    the cells that were there before are unchanged, and a listing asked
    for after it is the same as one asked for before it. *)
Theorem get_routes_keep_file req w :
  file (snd (get_root req w)) = file w /\
  file (snd (get_display w)) = file w /\
  file (snd (get_api_data w)) = file w /\
  (exists cells, heap (snd (get_display w)) = heap w ++ cells) /\
  fst (get_api_data (snd (get_display w))) = fst (get_api_data w) /\
  fst (get_display (snd (get_display w))) = fst (get_display w).
Proof.
  assert (file (snd (get_display w)) = file w) as Hd.
  { rewrite get_display_run. by destruct (loaded (file w)). }
  repeat split.
  - done.
  - rewrite get_api_data_run. done.
  - rewrite get_display_run. destruct (loaded (file w)); simpl; eauto.
  - by rewrite !get_api_data_run, Hd.
  - rewrite (get_display_run (snd (get_display w))), Hd.
    rewrite (get_display_run w).
    by destruct (loaded (file w)).
Qed.


(** ** The theorems at concrete requests *)

Section Witnesses.
Import Samples.Form.

Lemma ada_accepted : accepted (noon, ada).
Proof.
  repeat split; [exists "Ada" | exists "ada@example.com"]; split;
    first [reflexivity | discriminate].
Defined.

Lemma grace_accepted : accepted (later, grace).
Proof.
  repeat split; [exists "Grace" | exists "grace@example.com"]; split;
    first [reflexivity | discriminate].
Defined.


Lemma post_submit_rejects_witness :
  exists msg,
    msg <> "" /\
    fst (post_submit noon no_email fresh) = Val (Redirect ("/?message=" +:+ msg)) /\
    file (snd (post_submit noon no_email fresh)) = file fresh /\
    length (collection (file (snd (post_submit noon no_email fresh))))
      = length (collection (file fresh)) /\
    heap (snd (post_submit noon no_email fresh)) = heap fresh.
Proof.
  apply (post_submit_rejects noon no_email fresh).
  right. right. reflexivity.
Defined.

Lemma post_submit_keeps_invariant_witness :
  invariant (file (snd (post_submit noon ada fresh))).
Proof.
  apply (post_submit_keeps_invariant noon ada fresh).
  - right. exists "Ada". reflexivity.
  - right. exists "ada@example.com". reflexivity.
  - constructor.
Defined.

Lemma display_reverses_api_data_witness :
  exists rs,
    Forall2 matches rs [(noon, ada); (later, grace)] /\
    fst (get_api_data (post_all [(noon, ada); (later, grace)] fresh))
      = Val (Json 200 (JArr ([] ++ rs))) /\
    fst (get_display (post_all [(noon, ada); (later, grace)] fresh))
      = Val (Render "display"
               [ ("title", Some (JStr "Submitted Data"));
                 ("submissions", Some (JArr (rev rs ++ rev []))) ]).
Proof.
  apply (display_reverses_api_data [(noon, ada); (later, grace)] fresh []).
  - reflexivity.
  - constructor; [exact ada_accepted|].
    constructor; [exact grace_accepted|]. constructor.
Defined.

Lemma post_all_round_trip_witness :
  exists rs,
    fst (get_api_data (post_all [(noon, ada); (later, grace)] fresh))
      = Val (Json 200 (JArr rs)) /\
    collection (file (post_all [(noon, ada); (later, grace)] fresh)) = rs /\
    length rs = 2 /\
    Forall2 matches rs [(noon, ada); (later, grace)].
Proof.
  apply (post_all_round_trip [(noon, ada); (later, grace)] fresh).
  - left. reflexivity.
  - constructor; [exact ada_accepted|].
    constructor; [exact grace_accepted|]. constructor.
Defined.

Example display_latest_first :
  fst (get_display (post_all [(noon, ada); (later, grace)] fresh))
  = Val (Render "display"
           [ ("title", Some (JStr "Submitted Data"));
             ("submissions", Some (JArr
                [ JObj [ ("id", JNum 1700000000001); ("name", JStr "Grace");
                         ("email", JStr "grace@example.com"); ("phone", JStr "555");
                         ("message", JStr "hello");
                         ("timestamp", JStr "2023-11-14T22:13:20.001Z") ];
                  JObj [ ("id", JNum 1700000000000); ("name", JStr "Ada");
                         ("email", JStr "ada@example.com"); ("phone", JStr "");
                         ("message", JStr "");
                         ("timestamp", JStr "2023-11-14T22:13:20.000Z") ] ])) ]).
Proof. reflexivity. Qed.

End Witnesses.

End FormServiceFacts.

(** * More about the static asset server *)

Module StaticServerMore.
Import JsString Path StaticServer PathFacts StaticServerFacts.

(** ** The working directory does not matter *)

Lemma isAbsolute_nonempty d : isAbsolute d = true -> String.eqb d "" = false.
Proof. by destruct d. Qed.

Lemma resolve_loop_absolute_base cwd cwd' d x :
  isAbsolute d = true ->
  resolve_loop cwd [x; d] "" = resolve_loop cwd' [x; d] "" /\
  (resolve_loop cwd [x; d] "").2 = true.
Proof.
  intros Hd. pose proof (isAbsolute_nonempty d Hd) as Hne. simpl.
  destruct (String.eqb x ""); [|destruct (isAbsolute x)];
    rewrite ?Hne, ?Hd; done.
Qed.

Lemma resolve_absolute_base cwd cwd' d x :
  isAbsolute d = true ->
  resolve cwd [d; x] = resolve cwd' [d; x] /\
  isAbsolute (resolve cwd [d; x]) = true.
Proof.
  intros Hd. unfold resolve. simpl rev.
  destruct (resolve_loop_absolute_base cwd cwd' d x Hd) as [<- Habs].
  destruct (resolve_loop cwd [x; d] "") as [p abs]. simpl in Habs. subst abs.
  done.
Qed.

Section Server.
Variables (cwd dirname : string).

(** X1. [server] calls [readFile] at most once, and only on the
    resolved path of the request when that path begins with the text of
    [PUBLIC_DIR]: no other file is ever read. *)
Theorem server_reads_only_under_prefix fs req :
  (server cwd dirname fs req).2 = [] \/
  ((server cwd dirname fs req).2 = [resolved_path cwd dirname req] /\
   startsWith (resolved_path cwd dirname req) (PUBLIC_DIR cwd dirname) = true).
Proof.
  unfold server.
  destruct (startsWith (resolved_path cwd dirname req) (PUBLIC_DIR cwd dirname));
    simpl; [right | by left].
  by destruct (fs (resolved_path cwd dirname req)).
Qed.

(** X2. A request whose path resolves inside the public root to
    something [readFile] cannot read is answered with status 404, the
    text [Not Found] and no header, after one read of that path. *)
Theorem server_not_found fs req :
  inside_root (PUBLIC_DIR cwd dirname) (resolved_path cwd dirname req) = true ->
  fs (resolved_path cwd dirname req) = None ->
  server cwd dirname fs req
    = (Response 404 [] "Not Found", [resolved_path cwd dirname req]).
Proof.
  intros Hin%inside_root_startsWith Hfs. unfold server. by rewrite Hin, Hfs.
Qed.

(** X3. Status 403 is given only to a request whose path resolves
    outside the public root, always with the text [Forbidden], no header
    and no read. *)
Theorem server_forbidden_only_outside fs req :
  status (server cwd dirname fs req).1 = 403%Z ->
  inside_root (PUBLIC_DIR cwd dirname) (resolved_path cwd dirname req) = false /\
  server cwd dirname fs req = (Response 403 [] "Forbidden", []).
Proof.
  unfold server.
  destruct (startsWith (resolved_path cwd dirname req) (PUBLIC_DIR cwd dirname))
    eqn:Hg; simpl.
  - destruct (fs (resolved_path cwd dirname req)); simpl; discriminate.
  - intros _. split; [|done].
    destruct (inside_root _ _) eqn:Hin; [|done].
    apply inside_root_startsWith in Hin. congruence.
Qed.

End Server.

(** X4. When [__dirname] is an absolute path, the root, the resolved
    path of every request and the whole answer of the server are the
    same in every working directory of the process. *)
Theorem server_ignores_cwd cwd cwd' dirname fs req :
  isAbsolute dirname = true ->
  PUBLIC_DIR cwd dirname = PUBLIC_DIR cwd' dirname /\
  resolved_path cwd dirname req = resolved_path cwd' dirname req /\
  server cwd dirname fs req = server cwd' dirname fs req.
Proof.
  intros Hd.
  destruct (resolve_absolute_base cwd cwd' dirname "public" Hd) as [Hroot Habs].
  fold (PUBLIC_DIR cwd dirname) in Hroot, Habs.
  fold (PUBLIC_DIR cwd' dirname) in Hroot.
  assert (resolved_path cwd dirname req = resolved_path cwd' dirname req) as Hpath.
  { unfold resolved_path. rewrite <- Hroot.
    by destruct (resolve_absolute_base cwd cwd' (PUBLIC_DIR cwd dirname)
                   ("." +:+ (if bool_decide (url req = "/") then "/index.html"
                             else url req)) Habs) as [<- _]. }
  repeat split; [done..|].
  unfold server. by rewrite <- Hroot, <- Hpath.
Qed.

Section Witnesses.
Import Samples.Static.

Lemma server_not_found_witness :
  server "/" "/srv/app" no_files get_home
    = (Response 404 [] "Not Found", [resolved_path "/" "/srv/app" get_home]).
Proof.
  apply (server_not_found "/" "/srv/app" no_files get_home); reflexivity.
Defined.

Lemma server_forbidden_only_outside_witness :
  inside_root (PUBLIC_DIR "/" "/srv/app") (resolved_path "/" "/srv/app" get_passwd)
    = false /\
  server "/" "/srv/app" fs get_passwd = (Response 403 [] "Forbidden", []).
Proof.
  apply (server_forbidden_only_outside "/" "/srv/app" fs get_passwd). reflexivity.
Defined.

Lemma server_ignores_cwd_witness :
  PUBLIC_DIR "/" "/srv/app" = PUBLIC_DIR "/home/me" "/srv/app" /\
  resolved_path "/" "/srv/app" get_passwd
    = resolved_path "/home/me" "/srv/app" get_passwd /\
  server "/" "/srv/app" fs get_passwd = server "/home/me" "/srv/app" fs get_passwd.
Proof.
  apply (server_ignores_cwd "/" "/home/me" "/srv/app" fs get_passwd). reflexivity.
Defined.

End Witnesses.

End StaticServerMore.

(** * More about the form persistence service *)

Module FormServiceMore.
Import Js FormService FormCases FormServiceFacts.

(** ** [post_submit], case by case *)

Lemma post_submit_run e req w : post_submit e req w = submit_result e req w.
Proof.
  unfold post_submit, submit_result, to_display, to_form_required, to_form_error.
  destruct (body req) as [o|]; [|reflexivity].
  destruct o; try reflexivity; run;
  match goal with
  | |- context [negb (truthy ?a) || negb (truthy ?b)] =>
      destruct (negb (truthy a) || negb (truthy b)); [reflexivity|]
  end; run;
  destruct (loaded (file w)); try reflexivity; run;
  destruct (write_result e); reflexivity.
Qed.

Lemma guard_passes_run e req w :
  guard_passes req ->
  exists o,
    body req = Some o /\
    post_submit e req w =
      match loaded (file w) with
      | JArr items =>
          let items' :=
            items ++ [newSubmission e (get_prop o "name") (get_prop o "email")
                        (get_prop o "phone") (get_prop o "message")] in
          let w' := set_heap (heap w ++ [JArr items']) (after_read w) in
          (Val to_display,
           match write_result e with
           | Written => set_file (Holds (WellFormed (JArr items'))) w'
           | NotOpened => set_console (console w' ++ ["Error writing data:"]) w'
           | Truncated =>
               set_console (console w' ++ ["Error writing data:"])
                 (set_file (Holds Malformed) w')
           end)
      | _ =>
          (Val to_form_error,
           set_console (console (after_read w) ++ ["Error processing form:"])
             (after_read w))
      end.
Proof.
  intros (o & Hb & Hn & Hm). exists o. split; [done|].
  rewrite post_submit_run. unfold submit_result. rewrite Hb, Hn, Hm.
  destruct o; try discriminate Hn. reflexivity.
Qed.

Lemma truthy_defined v : truthy v = true -> exists x, v = Some x.
Proof. destruct v; [eauto | discriminate]. Qed.

(** [DATA_FILE] after a submission that could read it and whose write
    is not cut short. *)
Lemma submit_file_prefix e req f :
  read_fails f = false ->
  write_result e <> Truncated ->
  collection f `prefix_of` collection (submit_file e req f) /\
  length (collection (submit_file e req f)) <= S (length (collection f)).
Proof.
  intros _ Hw. unfold submit_file.
  assert (collection f `prefix_of` collection f /\
          length (collection f) <= S (length (collection f))) as Hsame
    by (split; [done | lia]).
  destruct (body req) as [o|]; [|done].
  destruct o; try done.
  destruct (negb _ || negb _); [done|].
  destruct (loaded f) as [| | | |items|] eqn:Hl; try done.
  destruct (write_result e); [|done|done].
  rewrite (collection_loaded _ _ Hl). unfold collection. cbn [loaded].
  split; [by apply prefix_app_r | rewrite length_app; simpl; lia].
Qed.

Lemma is_array_false v : is_array v = false -> forall items, v <> JArr items.
Proof. by destruct v. Qed.

(** ** The helpers *)

(** X5. [readData] never throws. It returns the address of a cell that
    was not in the heap before and that holds the parsed document, or the
    empty array when the file is absent or cannot be read or parsed; the
    cells that were there are unchanged, the file is untouched, and the
    console gets a line exactly when reading or parsing failed. *)
Theorem readData_total w :
  exists r w',
    readData w = (Val r, w') /\
    heap w !! r = None /\
    heap w' = heap w ++ [loaded (file w)] /\
    heap w' !! r = Some (loaded (file w)) /\
    file w' = file w /\
    console w' = (if read_fails (file w) then console w ++ ["Error reading data:"]
                  else console w).
Proof.
  exists (length (heap w)), (after_read w). rewrite readData_run.
  repeat split.
  - by apply lookup_ge_None_2.
  - apply lookup_fresh.
Qed.


(** ** The routes *)

(** X7. No exception leaves a route: [post_submit] always answers with
    one of its three redirects, [get_display] always renders the view
    [display], [get_root] the view [form]. *)
Theorem routes_always_respond e req w :
  (fst (post_submit e req w) = Val to_display \/
   fst (post_submit e req w) = Val to_form_required \/
   fst (post_submit e req w) = Val to_form_error) /\
  (exists locals, fst (get_display w) = Val (Render "display" locals)) /\
  (exists locals, fst (get_root req w) = Val (Render "form" locals)).
Proof.
  split; [|split].
  - rewrite post_submit_run. unfold submit_result.
    destruct (body req) as [[]|]; simpl; auto;
      destruct (negb _ || negb _); simpl; auto;
      destruct (loaded (file w)); simpl; auto.
  - rewrite get_display_run. destruct (loaded (file w)); simpl; eauto.
  - eexists. reflexivity.
Qed.

(** X8. [post_submit] answers with the redirect [Name and email are
    required] exactly when the body can be destructured and its name or
    its email is falsy ([undefined], [null], [false], [0] or ['']); the
    world is then left as it was: nothing is read, written or logged. *)
Theorem post_submit_required_iff e req w :
  (fst (post_submit e req w) = Val to_form_required <-> guard_fails req) /\
  (fst (post_submit e req w) = Val to_form_required ->
   snd (post_submit e req w) = w).
Proof.
  rewrite post_submit_run. unfold submit_result, guard_fails.
  destruct (body req) as [o|]; [|split; [split|]; [done|intros (? & ? & _); done|done]].
  assert (negb (truthy (get_prop o "name")) || negb (truthy (get_prop o "email")) = true
          <-> truthy (get_prop o "name") = false \/ truthy (get_prop o "email") = false)
    as Hg.
  { rewrite orb_true_iff, !negb_true_iff. done. }
  destruct (negb (truthy (get_prop o "name")) || negb (truthy (get_prop o "email")))
    eqn:Hguard.
  - assert (o = JNull \/ o <> JNull) as [-> | Hnn] by (destruct o; auto).
    + split; [split|]; [done| |done]. intros (o' & [= <-] & Hne & _). done.
    + assert (forall A (x y : A), match o with JNull => x | _ => y end = y) as Hm
        by (by destruct o).
      rewrite Hm. split; [split|]; [|done|done].
      intros _. exists o. repeat split; [done|]. by apply Hg.
  - assert (forall X Y : result response * world,
              (X.1 = Val to_form_error) ->
              (Y.1 = Val to_display \/ Y.1 = Val to_form_error) ->
              (match o with JNull => X | _ => Y end).1 <> Val to_form_required) as Hno.
    { intros X Y HX HY. destruct o; rewrite ?HX; try done;
        destruct HY as [-> | ->]; done. }
    match goal with
    | |- (fst ?t = _ <-> _) /\ _ => assert (fst t <> Val to_form_required) as Hne
    end.
    { apply Hno; [done|]. destruct (loaded (file w)); simpl; auto. }
    split; [split|]; [done| |done].
    intros (o' & [= <-] & _ & Hf). apply Hg in Hf. discriminate.
Qed.

(** X9. When the write fails, an accepted submission is still answered
    with the redirect to [/display]; the failure is only written to the
    console. If the file could not be opened it is left as it was; if
    the write was cut short, the records that were in it are lost. *)
Theorem post_submit_write_failure e req w items :
  guard_passes req ->
  loaded (file w) = JArr items ->
  write_result e <> Written ->
  fst (post_submit e req w) = Val to_display /\
  last (console (snd (post_submit e req w))) = Some "Error writing data:" /\
  (write_result e = NotOpened -> file (snd (post_submit e req w)) = file w) /\
  (write_result e = Truncated -> collection (file (snd (post_submit e req w))) = []).
Proof.
  intros Hg Hl Hw.
  destruct (guard_passes_run e req w Hg) as (o & _ & ->). rewrite Hl.
  destruct (write_result e); [done| |]; simpl;
    rewrite last_snoc; repeat split; done.
Qed.

(** X10. On a document that parses to something that is no array, a
    submission that passes the guard is answered with the error redirect:
    [push] throws, nothing is written, and the console gets the line of
    the [catch] of the route. *)
Theorem post_submit_not_a_list e req w :
  guard_passes req ->
  is_array (loaded (file w)) = false ->
  fst (post_submit e req w) = Val to_form_error /\
  file (snd (post_submit e req w)) = file w /\
  console (snd (post_submit e req w)) = console w ++ ["Error processing form:"].
Proof.
  intros Hg Ha.
  destruct (guard_passes_run e req w Hg) as (o & _ & ->).
  destruct (file w) as [| |[|v]] eqn:Hf; try discriminate Ha.
  simpl in *. destruct v; try discriminate Ha; simpl; rewrite Hf; done.
Qed.

(** X11. For a form whose name and email are non-empty strings and
    whose phone and message are strings or absent, the record that
    [post_submit] stores has exactly the six properties [id], [name],
    [email], [phone], [message] and [timestamp], in this order: name and
    email as submitted, phone and message as submitted or [''] when
    absent, and nothing of the other fields of the body. *)
Theorem post_submit_record_shape e req w items n m :
  field req "name" = Some (JStr n) -> n <> "" ->
  field req "email" = Some (JStr m) -> m <> "" ->
  string_or_absent (field req "phone") ->
  string_or_absent (field req "message") ->
  loaded (file w) = JArr items ->
  write_result e = Written ->
  exists p q,
    collection (file (snd (post_submit e req w)))
      = items ++ [JObj [ ("id", JNum (now_ms e)); ("name", JStr n);
                         ("email", JStr m); ("phone", JStr p);
                         ("message", JStr q);
                         ("timestamp", JStr (now_iso e)) ]] /\
    (field req "phone" = None /\ p = "" \/ field req "phone" = Some (JStr p)) /\
    (field req "message" = None /\ q = "" \/ field req "message" = Some (JStr q)).
Proof.
  intros Hn Hn' Hm Hm' Hp Hq Hl Hw.
  rewrite post_submit_file. unfold submit_file.
  unfold field in *. destruct (body req) as [o|]; [|done].
  destruct o; try discriminate Hn.
  rewrite Hn, Hm, Hl, Hw. simpl truthy.
  rewrite !bool_decide_eq_false_2 by done.
  cbn [negb orb collection loaded]. unfold newSubmission, js_or.
  destruct Hp as [-> | [p ->]], Hq as [-> | [q ->]]; simpl truthy;
    repeat match goal with
           | |- context [bool_decide (?x = "")] =>
               destruct (bool_decide_reflect (x = "")) as [-> | ?]
           end;
    cbn [negb object_literal]; eexists _, _; repeat split; auto.
Qed.

(** X12. When [post_submit] finds a document that is absent or that it
    can read and parse, and its write is not cut short, it changes and
    removes no record: the collection before it is a prefix of the
    collection after it, which has at most one record more. *)
Theorem post_submit_append_only e req w :
  read_fails (file w) = false ->
  write_result e <> Truncated ->
  collection (file w) `prefix_of` collection (file (snd (post_submit e req w))) /\
  length (collection (file (snd (post_submit e req w))))
    <= S (length (collection (file w))).
Proof.
  intros Hr Hw. rewrite post_submit_file. by apply submit_file_prefix.
Qed.

(** X13. The same over any run of submissions, valid or not, in which
    every read succeeds and no write is cut short: the collection at the
    start is a prefix of the collection at the end, which has grown by at
    most the number of submissions. *)
Theorem post_all_append_only inputs : forall w,
  every_read_succeeds inputs w ->
  Forall (fun input => write_result input.1 <> Truncated) inputs ->
  collection (file w) `prefix_of` collection (file (post_all inputs w)) /\
  length (collection (file (post_all inputs w)))
    <= length (collection (file w)) + length inputs.
Proof.
  induction inputs as [|[e req] inputs IH]; intros w Hreads Hall.
  - simpl. split; [done | lia].
  - apply Forall_cons in Hall as [Hw Hall]. simpl in Hw.
    destruct Hreads as [Hr Hreads].
    destruct (IH (snd (post_submit e req w)) Hreads Hall) as [Hp Hlen].
    destruct (submit_file_prefix e req (file w) Hr Hw) as [Hp1 Hlen1].
    rewrite <- post_submit_file in Hp1, Hlen1.
    simpl. split; [by etrans | lia].
Qed.

(** X14. When reading or parsing the document fails, [get_display]
    shows an empty list and no error: the failure was caught in
    [readData], and the only trace of it is the console line. *)
Theorem get_display_read_failure w :
  read_fails (file w) = true ->
  fst (get_display w)
    = Val (Render "display"
             [ ("title", Some (JStr "Submitted Data"));
               ("submissions", Some (JArr [])) ]) /\
  console (snd (get_display w)) = console w ++ ["Error reading data:"].
Proof.
  intros Hf. rewrite get_display_run.
  destruct (file w) as [| |[|v]] eqn:Hfile; try discriminate Hf;
    simpl; rewrite Hfile; done.
Qed.

(** X15. On a document that parses to something that is no array,
    [get_display] shows an empty list with the error [Error loading
    data], after a console line; [get_api_data] returns that document as
    it is, with status 200. *)
Theorem get_display_not_a_list w :
  is_array (loaded (file w)) = false ->
  fst (get_display w)
    = Val (Render "display"
             [ ("title", Some (JStr "Submitted Data"));
               ("submissions", Some (JArr []));
               ("error", Some (JStr "Error loading data")) ]) /\
  console (snd (get_display w)) = console w ++ ["Error displaying data:"] /\
  fst (get_api_data w) = Val (Json 200 (loaded (file w))).
Proof.
  intros Ha. rewrite get_display_run, get_api_data_run.
  destruct (file w) as [| |[|v]] eqn:Hf; try discriminate Ha.
  simpl in *. destruct v; try discriminate Ha; simpl; rewrite Hf; done.
Qed.


(** X16. The file is all that one request leaves to the next: in two
    worlds with the same file, whatever their heaps and consoles, every
    route gives the same response and [post_submit] leaves the same
    file. *)
Theorem routes_depend_on_file_only e req w1 w2 :
  file w1 = file w2 ->
  fst (post_submit e req w1) = fst (post_submit e req w2) /\
  file (snd (post_submit e req w1)) = file (snd (post_submit e req w2)) /\
  fst (get_display w1) = fst (get_display w2) /\
  fst (get_api_data w1) = fst (get_api_data w2) /\
  fst (get_root req w1) = fst (get_root req w2).
Proof.
  intros Hf.
  rewrite !post_submit_file, !get_display_run, !get_api_data_run, !post_submit_run.
  unfold submit_result. rewrite Hf.
  repeat split.
  - destruct (body req) as [[]|]; try done;
      destruct (negb _ || negb _); try done;
      destruct (loaded (file w2)); done.
  - by destruct (loaded (file w2)).
Qed.

(** ** The theorems at concrete requests *)

Section Witnesses.
Import Samples.Form.

Lemma ada_passes : guard_passes ada.
Proof. eexists. repeat split. Defined.

Lemma post_submit_required_iff_witness :
  snd (post_submit noon zero_name fresh) = fresh.
Proof.
  apply (proj2 (post_submit_required_iff noon zero_name fresh)). reflexivity.
Defined.

Lemma post_submit_write_failure_witness :
  fst (post_submit disk_full ada stocked) = Val to_display /\
  last (console (snd (post_submit disk_full ada stocked)))
    = Some "Error writing data:" /\
  (write_result disk_full = NotOpened ->
   file (snd (post_submit disk_full ada stocked)) = file stocked) /\
  (write_result disk_full = Truncated ->
   collection (file (snd (post_submit disk_full ada stocked))) = []).
Proof.
  apply (post_submit_write_failure disk_full ada stocked [ada_record]).
  - exact ada_passes.
  - reflexivity.
  - discriminate.
Defined.

Lemma post_submit_not_a_list_witness :
  fst (post_submit noon ada not_a_list) = Val to_form_error /\
  file (snd (post_submit noon ada not_a_list)) = file not_a_list /\
  console (snd (post_submit noon ada not_a_list))
    = console not_a_list ++ ["Error processing form:"].
Proof.
  apply (post_submit_not_a_list noon ada not_a_list).
  - exact ada_passes.
  - reflexivity.
Defined.


Lemma post_submit_record_shape_witness :
  exists p q,
    collection (file (snd (post_submit noon with_role stocked)))
      = [ada_record] ++
        [JObj [ ("id", JNum (now_ms noon)); ("name", JStr "Eve");
                ("email", JStr "eve@example.com"); ("phone", JStr p);
                ("message", JStr q); ("timestamp", JStr (now_iso noon)) ]] /\
    (field with_role "phone" = None /\ p = "" \/
     field with_role "phone" = Some (JStr p)) /\
    (field with_role "message" = None /\ q = "" \/
     field with_role "message" = Some (JStr q)).
Proof.
  apply (post_submit_record_shape noon with_role stocked [ada_record]
           "Eve" "eve@example.com");
    first [ reflexivity | discriminate
          | by (right; eexists; reflexivity) | by left ].
Defined.

Lemma post_submit_append_only_witness :
  collection (file stocked)
    `prefix_of` collection (file (snd (post_submit noon_disk_gone ada stocked))) /\
  length (collection (file (snd (post_submit noon_disk_gone ada stocked))))
    <= S (length (collection (file stocked))).
Proof.
  apply (post_submit_append_only noon_disk_gone ada stocked);
    [reflexivity | discriminate].
Defined.

Lemma post_all_append_only_witness :
  collection (file stocked)
    `prefix_of` collection (file (post_all [(later, grace); (noon_disk_gone, ada);
                                           (later, no_email)] stocked)) /\
  length (collection (file (post_all [(later, grace); (noon_disk_gone, ada);
                                      (later, no_email)] stocked)))
    <= length (collection (file stocked)) + 3.
Proof.
  apply (post_all_append_only [(later, grace); (noon_disk_gone, ada); (later, no_email)]
           stocked).
  - repeat split.
  - repeat (constructor; [discriminate|]). constructor.
Defined.

Lemma get_display_read_failure_witness :
  fst (get_display garbled)
    = Val (Render "display"
             [ ("title", Some (JStr "Submitted Data"));
               ("submissions", Some (JArr [])) ]) /\
  console (snd (get_display garbled)) = console garbled ++ ["Error reading data:"].
Proof. apply (get_display_read_failure garbled). reflexivity. Defined.

Lemma get_display_not_a_list_witness :
  fst (get_display not_a_list)
    = Val (Render "display"
             [ ("title", Some (JStr "Submitted Data"));
               ("submissions", Some (JArr []));
               ("error", Some (JStr "Error loading data")) ]) /\
  console (snd (get_display not_a_list))
    = console not_a_list ++ ["Error displaying data:"] /\
  fst (get_api_data not_a_list) = Val (Json 200 (loaded (file not_a_list))).
Proof. apply (get_display_not_a_list not_a_list). reflexivity. Defined.

Lemma routes_depend_on_file_only_witness :
  fst (post_submit later grace stocked)
    = fst (post_submit later grace (snd (get_display stocked))) /\
  file (snd (post_submit later grace stocked))
    = file (snd (post_submit later grace (snd (get_display stocked)))) /\
  fst (get_display stocked) = fst (get_display (snd (get_display stocked))) /\
  fst (get_api_data stocked) = fst (get_api_data (snd (get_display stocked))) /\
  fst (get_root grace stocked) = fst (get_root grace (snd (get_display stocked))).
Proof.
  apply (routes_depend_on_file_only later grace stocked (snd (get_display stocked))).
  reflexivity.
Defined.

Example unknown_field_is_dropped :
  collection (file (snd (post_submit noon with_role fresh)))
  = [JObj [ ("id", JNum 1700000000000); ("name", JStr "Eve");
            ("email", JStr "eve@example.com"); ("phone", JStr "");
            ("message", JStr ""); ("timestamp", JStr "2023-11-14T22:13:20.000Z") ]].
Proof. reflexivity. Qed.

End Witnesses.

End FormServiceMore.
